(** * Vio: the generated scene scripts under [temp/videos/chunks]

    Every file [chunk_N/chunk_N.py] defines one class [VideoScene(Scene)]
    whose [construct] method builds two [Text] objects and issues a fixed
    sequence of calls into the rendering framework (manim).  The scripts are
    embedded here as terms of a small script monad whose only effect is "call
    the framework and continue with what it returned"; the framework itself
    is external to the repository and enters either as an arbitrary
    transition relation or through an executable reference model. *)

From Stdlib Require Import QArith Qcanon.
From Stdlib Require PrimFloat Uint63.
From stdpp Require Import base option list strings numbers.

(** ** The framework boundary: what [from manim import *] brings in *)

Module manim.

(** The two colour constants the scripts mention. *)
Inductive color := BLUE | WHITE.

(** A Python numeric literal is an [int] ([40], [24], [11], [1], [2]) or a
    [float] ([1.5], [0.5]).  Every float literal of the scripts is a dyadic
    rational, so [Q] holds its value exactly. *)
Inductive pynum := PyInt (z : Z) | PyFloat (q : Q).

Definition value (n : pynum) : Q :=
  match n with
  | PyInt z => inject_Z z
  | PyFloat q => q
  end.

(** A Python [int] as a Python [float], as [int / float] converts it.  The
    conversion is exact for the integers of the scripts. *)
Definition float_of_Z (z : Z) : PrimFloat.float :=
  match z with
  | Z0 => PrimFloat.zero
  | Zpos _ => PrimFloat.of_uint63 (Uint63.of_Z z)
  | Zneg _ => PrimFloat.opp (PrimFloat.of_uint63 (Uint63.of_Z (Z.opp z)))
  end.

(** A numeric literal where the framework computes with it in floats. *)
Definition to_float (n : pynum) : PrimFloat.float :=
  match n with
  | PyInt z => float_of_Z z
  | PyFloat q =>
      PrimFloat.div (float_of_Z (Qnum q)) (float_of_Z (Zpos (Qden q)))
  end.

(** A mobject is a Python object; a variable holds a reference to it. *)
Definition mobject := nat.

(** Animation objects, built by the constructors of the same names. *)
Inductive animation :=
| Write (mobject : mobject)
| Transform (mobject target_mobject : mobject)
| FadeOut (mobject : mobject).

(** The calls that cross into the framework, with their arguments. *)
Inductive call :=
| Call_Text (text : string) (font_size : pynum) (color : color)
| Call_scale_to_fit_width (self : mobject) (width : pynum)
| Call_play (anim : animation) (run_time : pynum)
| Call_wait (duration : pynum).

(** What a call hands back: [Text(...)] the new object, [scale_to_fit_width]
    its receiver, [play] and [wait] nothing. *)
Definition result (c : call) : Type :=
  match c with
  | Call_Text _ _ _ => mobject
  | Call_scale_to_fit_width _ _ => mobject
  | Call_play _ _ => unit
  | Call_wait _ => unit
  end.

(** One entry of a run's record: the call and what it returned. *)
Definition event := { c : call & result c }.

Definition returned (c : call) (r : result c) : event := existT c r.

Definition ev_call (e : event) : call := projT1 e.

(** *** Scripts

    A script either returns, or calls the framework and goes on with the
    answer.  The statements of a Python method body become binds. *)

Inductive script (A : Type) : Type :=
| Ret (a : A)
| Call (c : call) (k : result c -> script A).

Arguments Ret {A} a.
Arguments Call {A} c k.

Fixpoint script_bind {A B} (p : script A) (f : A -> script B) : script B :=
  match p with
  | Ret a => f a
  | Call c k => Call c (fun r => script_bind (k r) f)
  end.

#[export] Instance script_ret : MRet script := @Ret.

#[export] Instance script_mbind : MBind script :=
  fun A B f p => script_bind p f.

Definition perform (c : call) : script (result c) := Call c Ret.

Definition Text (text : string) (font_size : pynum) (color : color)
  : script mobject :=
  perform (Call_Text text font_size color).

Definition scale_to_fit_width (self : mobject) (width : pynum)
  : script mobject :=
  perform (Call_scale_to_fit_width self width).

Definition play (anim : animation) (run_time : pynum) : script unit :=
  perform (Call_play anim run_time).

Definition wait (duration : pynum) : script unit :=
  perform (Call_wait duration).

End manim.

Import manim.

(** ** The four scripts, one module per file

    [title = Text(...)] and [content = Text(...)] bind the two objects;
    [self.play(anim, run_time=t)] and [self.wait(t)] are calls on the scene
    that runs the script. *)

Module chunk_8.
Module VideoScene.

Definition construct : script unit :=
  title ← Text "Machine Learning Models" (PyInt 40) BLUE;
  content ← Text "Machine learning models are like the brain of the child. They learn from data and make predictions. ..." (PyInt 24) WHITE;
  scale_to_fit_width content (PyInt 11);;
  play (Write title) (PyFloat 1.5);;
  wait (PyFloat 0.5);;
  play (Transform title content) (PyInt 1);;
  wait (PyInt 2);;
  play (FadeOut title) (PyFloat 0.5).

End VideoScene.
End chunk_8.

Module chunk_9.
Module VideoScene.

Definition construct : script unit :=
  title ← Text "Real-World Applications" (PyInt 40) BLUE;
  content ← Text "Machine learning is used in many real-world applications, such as image recognition, natural languag..." (PyInt 24) WHITE;
  scale_to_fit_width content (PyInt 11);;
  play (Write title) (PyFloat 1.5);;
  wait (PyFloat 0.5);;
  play (Transform title content) (PyInt 1);;
  wait (PyInt 2);;
  play (FadeOut title) (PyFloat 0.5).

End VideoScene.
End chunk_9.

Module chunk_10.
Module VideoScene.

Definition construct : script unit :=
  title ← Text "Conclusion" (PyInt 40) BLUE;
  content ← Text "In conclusion, machine learning is a powerful tool that can learn from data and make predictions. It..." (PyInt 24) WHITE;
  scale_to_fit_width content (PyInt 11);;
  play (Write title) (PyFloat 1.5);;
  wait (PyFloat 0.5);;
  play (Transform title content) (PyInt 1);;
  wait (PyInt 2);;
  play (FadeOut title) (PyFloat 0.5).

End VideoScene.
End chunk_10.

Module chunk_11.
Module VideoScene.

Definition construct : script unit :=
  title ← Text "What is Machine Learning?" (PyInt 40) BLUE;
  content ← Text "Imagine you're trying to teach a child to recognize different animals. You show them pictures of cat..." (PyInt 24) WHITE;
  scale_to_fit_width content (PyInt 11);;
  play (Write title) (PyFloat 1.5);;
  wait (PyFloat 0.5);;
  play (Transform title content) (PyInt 1);;
  wait (PyInt 2);;
  play (FadeOut title) (PyFloat 0.5).

End VideoScene.
End chunk_11.

(** The files of the repository, and the [construct] each one defines. *)
Inductive chunk := Chunk8 | Chunk9 | Chunk10 | Chunk11.

Definition construct_of (ch : chunk) : script unit :=
  match ch with
  | Chunk8 => chunk_8.VideoScene.construct
  | Chunk9 => chunk_9.VideoScene.construct
  | Chunk10 => chunk_10.VideoScene.construct
  | Chunk11 => chunk_11.VideoScene.construct
  end.

Definition all_chunks : list chunk := [Chunk8; Chunk9; Chunk10; Chunk11].

(** ** Running a script against a framework

    The framework is a transition relation on its own state: [fw c s r s']
    says that call [c], issued in state [s], may return [r] and leave state
    [s'].  Nothing is assumed about it here: it may refuse a call, and it may
    answer the same call in several ways. *)

Section Runs.
Context {S : Type}.
Variable fw : forall c : call, S -> result c -> S -> Prop.

(** [runs p s tr a s']: script [p], started in [s], runs to completion with
    value [a] in state [s'], having issued exactly the calls [tr]. *)
Fixpoint runs {A} (p : script A) (s : S) (tr : list event) (a : A) (s' : S)
  : Prop :=
  match p with
  | Ret x => tr = [] /\ a = x /\ s' = s
  | Call c k =>
      exists (r : result c) (s1 : S) (tr1 : list event),
        fw c s r s1 /\ tr = returned c r :: tr1 /\ runs (k r) s1 tr1 a s'
  end.

(** The framework answers every call. *)
Definition fw_total : Prop :=
  forall c s, exists r s1, fw c s r s1.

End Runs.
(** ** A reference model of the framework

    What the scripts rely on, as the framework behaves: a [Text] is a new
    mobject laid out from its string; [scale_to_fit_width] rescales its
    receiver, in floats, unless its width is zero; [play] puts the animated
    mobject on the scene unless it is there already and lets the animation
    act; [wait] plays a [Wait] animation, whose mobject is a fresh bare
    [Mobject()] that is put on the scene and stays there.  [play] and [wait]
    refuse a duration that is not positive.  The model keeps the heap of
    mobjects and the scene's display list; it has no clock and renders no
    frames, and it does not follow the copies an animation makes for itself,
    which never reach the display list. *)

(** How a text looks: its string, the font size and colour it was laid out
    with (the constructor's arguments), and the width of its points, a
    Python float. *)
Record shape := Shape {
  glyphs : string;
  font_size : pynum;
  fill : color;
  width : PrimFloat.float
}.

(** What the heap holds for a mobject: a text with its looks, or a bare
    [Mobject()], which has no points and draws nothing. *)
Inductive object :=
| Text_object (looks : shape)
| Bare_mobject.

Definition looks_of (o : object) : option shape :=
  match o with
  | Text_object sh => Some sh
  | Bare_mobject => None
  end.

(** The Python heap of mobjects and the scene's display list
    ([Scene.mobjects]). *)
Record scene := Scene {
  heap : list object;
  mobjects : list mobject
}.

Definition set_heap (h : list object) (s : scene) : scene :=
  Scene h (mobjects s).

Definition set_mobjects (l : list mobject) (s : scene) : scene :=
  Scene (heap s) l.

(** Taking a mobject off the display list ([Scene.remove]), and what [play]
    does with the mobject of an animation: it goes to the end of the display
    list unless it is displayed already. *)
Definition remove (m : mobject) (l : list mobject) : list mobject :=
  filter (fun x => x <> m) l.

Definition add (m : mobject) (l : list mobject) : list mobject :=
  if decide (m ∈ l) then l else l ++ [m].

(** [Mobject.rescale_to_fit] on the width: nothing to do for a zero length
    ([old_length == 0]), otherwise scale by the float [length / old_length].
    The width is taken to follow as one float product. *)
Definition scaled_width (w length : PrimFloat.float) : PrimFloat.float :=
  if PrimFloat.eqb w PrimFloat.zero then w
  else PrimFloat.mul w (PrimFloat.div length w).

Definition rescale_to_fit (sh : shape) (length : PrimFloat.float) : shape :=
  Shape (glyphs sh) (font_size sh) (fill sh) (scaled_width (width sh) length).

Definition rescale_object (o : object) (length : PrimFloat.float) : object :=
  match o with
  | Text_object sh => Text_object (rescale_to_fit sh length)
  | Bare_mobject => Bare_mobject
  end.

(** One animation played to its end.  [Write] is an introducer, [FadeOut] a
    remover; [Transform] leaves its mobject on the scene with the looks of
    the target, and never adds the target. *)
Definition animate (a : animation) (s : scene) : option scene :=
  match a with
  | Write m =>
      _ ← heap s !! m;
      Some (set_mobjects (add m (mobjects s)) s)
  | Transform m target =>
      _ ← heap s !! m;
      o ← heap s !! target;
      Some (set_mobjects (add m (mobjects s)) (set_heap (<[m := o]> (heap s)) s))
  | FadeOut m =>
      _ ← heap s !! m;
      Some (set_mobjects (remove m (mobjects s)) s)
  end.

(** A duration the framework accepts. *)
Definition positive (n : pynum) : bool := negb (Qle_bool (value n) 0).

(** [Scene.wait]: the bare mobject of the [Wait] animation is created and
    put on the display list. *)
Definition hold (s : scene) : scene :=
  Scene (heap s ++ [Bare_mobject]) (add (length (heap s)) (mobjects s)).

Section Reference.

(** The width the text renderer gives a string at a font size; the scripts
    have no say in it. *)
Variable text_width : string -> pynum -> PrimFloat.float.

(** One call answered.  A new [Text] is the next object of the heap; a call
    on an object that the heap does not hold fails. *)
Definition handle (c : call) (s : scene) : option (result c * scene) :=
  match c return option (result c * scene) with
  | Call_Text text fs col =>
      Some (length (heap s),
            set_heap
              (heap s ++ [Text_object (Shape text fs col (text_width text fs))])
              s)
  | Call_scale_to_fit_width self w =>
      o ← heap s !! self;
      Some (self,
            set_heap (<[self := rescale_object o (to_float w)]> (heap s)) s)
  | Call_play anim run_time =>
      if positive run_time then s1 ← animate anim s; Some (tt, s1) else None
  | Call_wait duration =>
      if positive duration then Some (tt, hold s) else None
  end.

(** The reference framework as a transition relation. *)
Definition model (c : call) (s : scene) (r : result c) (s' : scene) : Prop :=
  handle c s = Some (r, s').

(** Running a script on the model: the calls issued with their results, the
    script's value and the final scene; [None] when a call fails. *)
Fixpoint run {A} (p : script A) (s : scene)
  : option (list event * A * scene) :=
  match p with
  | Ret a => Some ([], a, s)
  | Call c k =>
      match handle c s with
      | None => None
      | Some (r, s1) =>
          match run (k r) s1 with
          | None => None
          | Some (tr, a, s') => Some (returned c r :: tr, a, s')
          end
      end
  end.

(** The scenes a run passes through, one after each call. *)
Fixpoint history {A} (p : script A) (s : scene) : list scene :=
  match p with
  | Ret _ => []
  | Call c k =>
      match handle c s with
      | None => []
      | Some (r, s1) => s1 :: history (k r) s1
      end
  end.

End Reference.

(** ** What a file says, read off its script

    The calls of a script in program order.  The framework's answers are
    stubbed by allocation order, since a straight-line script issues the
    same calls whatever it is answered; [runs_construct] below checks this
    against every framework. *)

Definition stub (c : call) (next : mobject) : result c :=
  match c return result c with
  | Call_Text _ _ _ => next
  | Call_scale_to_fit_width self _ => self
  | Call_play _ _ => tt
  | Call_wait _ => tt
  end.

Fixpoint calls_of {A} (p : script A) (next : mobject) : list call :=
  match p with
  | Ret _ => []
  | Call c k => c :: calls_of (k (stub c next)) (S next)
  end.

Definition text_of (c : call) : option string :=
  match c with
  | Call_Text text _ _ => Some text
  | _ => None
  end.

Definition texts {A} (p : script A) : list string :=
  omap text_of (calls_of p 0).

(** The string given to the first and to the second [Text] of a file. *)
Definition title_text (ch : chunk) : string :=
  default EmptyString (texts (construct_of ch) !! 0%nat).

Definition body_text (ch : chunk) : string :=
  default EmptyString (texts (construct_of ch) !! 1%nat).

(** The record of a complete run of a file: the eight calls with the source's
    literals, for the objects [title], [content] that the two [Text] calls
    returned and the value [scaled] that [scale_to_fit_width] returned. *)
Definition issued (title_s body_s : string) (title content scaled : mobject)
  : list event :=
  [ returned (Call_Text title_s (PyInt 40) BLUE) title;
    returned (Call_Text body_s (PyInt 24) WHITE) content;
    returned (Call_scale_to_fit_width content (PyInt 11)) scaled;
    returned (Call_play (Write title) (PyFloat 1.5)) tt;
    returned (Call_wait (PyFloat 0.5)) tt;
    returned (Call_play (Transform title content) (PyInt 1)) tt;
    returned (Call_wait (PyInt 2)) tt;
    returned (Call_play (FadeOut title) (PyFloat 0.5)) tt ].

(** ** The template of the specification

    "Each file is a parameterized instance of the same template (title text,
    body text, color, font size, timing constants)": construct a title and a
    body text object, scale the body to fit a fixed width, reveal the title,
    hold, morph the title into the body, hold, fade out. *)

Record parameters := Parameters {
  title_string : string;
  body_string : string;
  title_font_size : pynum;
  title_color : color;
  body_font_size : pynum;
  body_color : color;
  fit_width : pynum;
  write_time : pynum;
  first_hold : pynum;
  transform_time : pynum;
  second_hold : pynum;
  fade_time : pynum
}.

Definition template (P : parameters) : script unit :=
  title ← Text (title_string P) (title_font_size P) (title_color P);
  content ← Text (body_string P) (body_font_size P) (body_color P);
  scale_to_fit_width content (fit_width P);;
  play (Write title) (write_time P);;
  wait (first_hold P);;
  play (Transform title content) (transform_time P);;
  wait (second_hold P);;
  play (FadeOut title) (fade_time P).

(** The instance with the numbers and colours found in the files; only the
    two strings are left open. *)
Definition instance (title_s body_s : string) : parameters :=
  Parameters title_s body_s (PyInt 40) BLUE (PyInt 24) WHITE (PyInt 11)
             (PyFloat 1.5) (PyFloat 0.5) (PyInt 1) (PyInt 2) (PyFloat 0.5).

(** ** Reading a run *)

(** The kind of a call, without its arguments. *)
Inductive kind := K_Text | K_scale_to_fit_width | K_play | K_wait.

Definition call_kind (c : call) : kind :=
  match c with
  | Call_Text _ _ _ => K_Text
  | Call_scale_to_fit_width _ _ => K_scale_to_fit_width
  | Call_play _ _ => K_play
  | Call_wait _ => K_wait
  end.

Definition kinds (tr : list event) : list kind :=
  map (fun e => call_kind (ev_call e)) tr.

(** The kind of an animation, without the objects it acts on. *)
Inductive animation_kind := A_Write | A_Transform | A_FadeOut.

Definition kind_of_animation (a : animation) : animation_kind :=
  match a with
  | Write _ => A_Write
  | Transform _ _ => A_Transform
  | FadeOut _ => A_FadeOut
  end.

(** An operation: the kind of a call with its timing parameter, leaving out
    the strings, the looks and the object identities. *)
Inductive operation :=
| Op_Text
| Op_scale_to_fit_width
| Op_play (a : animation_kind) (run_time : pynum)
| Op_wait (duration : pynum).

Definition operation_of (c : call) : operation :=
  match c with
  | Call_Text _ _ _ => Op_Text
  | Call_scale_to_fit_width _ _ => Op_scale_to_fit_width
  | Call_play a rt => Op_play (kind_of_animation a) rt
  | Call_wait d => Op_wait d
  end.

Definition operations (tr : list event) : list operation :=
  map (fun e => operation_of (ev_call e)) tr.

(** The seconds a call asks the framework to spend. *)
Definition duration_of (c : call) : Q :=
  match c with
  | Call_play _ rt => value rt
  | Call_wait d => value d
  | _ => 0
  end.

Fixpoint scripted_duration (tr : list event) : Q :=
  match tr with
  | [] => 0
  | e :: tr' => duration_of (ev_call e) + scripted_duration tr'
  end.

(** The animations handed to [play], in order, and the mobject an animation
    acts on (its first argument). *)
Definition animation_of (c : call) : option animation :=
  match c with
  | Call_play a _ => Some a
  | _ => None
  end.

Definition played (tr : list event) : list animation :=
  omap (fun e => animation_of (ev_call e)) tr.

Definition subject (a : animation) : mobject :=
  match a with
  | Write m => m
  | Transform m _ => m
  | FadeOut m => m
  end.

(** A call that shows something: an animation or a wait. *)
Definition shows_frames (e : event) : bool :=
  match call_kind (ev_call e) with
  | K_play | K_wait => true
  | _ => false
  end.

(** The strings given to [Text] in a run. *)
Definition texts_issued (tr : list event) : list string :=
  omap (fun e => text_of (ev_call e)) tr.

(** Scene [sc] displays a mobject that looks like [sh] and reads [text]. *)
Definition displays (sc : scene) (text : string) (sh : shape) : Prop :=
  exists m,
    m ∈ mobjects sc /\ heap sc !! m = Some (Text_object sh) /\
    glyphs sh = text.

(** *** Literals *)

(** The literals of a call, each with the place it is written in. *)
Inductive literal :=
| Lit_text (s : string)
| Lit_font_size (n : pynum)
| Lit_color (c : color)
| Lit_fit_width (n : pynum)
| Lit_duration (n : pynum).

Definition literals_of (c : call) : list literal :=
  match c with
  | Call_Text text fs col => [Lit_text text; Lit_font_size fs; Lit_color col]
  | Call_scale_to_fit_width _ w => [Lit_fit_width w]
  | Call_play _ rt => [Lit_duration rt]
  | Call_wait d => [Lit_duration d]
  end.

Definition file_literals (ch : chunk) : list literal :=
  flat_map literals_of (calls_of (construct_of ch) 0).

Definition literals_issued (tr : list event) : list literal :=
  flat_map (fun e => literals_of (ev_call e)) tr.

Definition is_text_literal (l : literal) : bool :=
  match l with
  | Lit_text _ => true
  | _ => false
  end.

Definition non_string_literals (ls : list literal) : list literal :=
  List.filter (fun l => negb (is_text_literal l)) ls.

(** The values of the duration literals, as canonical rationals. *)
Definition duration_values (ls : list literal) : list Qc :=
  omap (fun l => match l with
                 | Lit_duration n => Some (Q2Qc (value n))
                 | _ => None
                 end) ls.

(** *** The sequence the specification describes *)

(** The steps in the specification's words; seconds are plain rationals. *)
Inductive step :=
| Build_text (text : string) (object : mobject)
| Scale_to_width (object : mobject) (w : Q)
| Animate (a : animation) (seconds : Q)
| Hold (seconds : Q).

Definition described_sequence (title_s body_s : string)
    (title body : mobject) (w : Q) : list step :=
  [ Build_text title_s title;
    Build_text body_s body;
    Scale_to_width body w;
    Animate (Write title) 1.5;
    Hold 0.5;
    Animate (Transform title body) 1.0;
    Hold 2.0;
    Animate (FadeOut title) 0.5 ].

(** Event [e] is the framework call that carries out step [st]. *)
Definition performs (e : event) (st : step) : Prop :=
  match e, st with
  | existT (Call_Text text _ _) r, Build_text text' object =>
      text = text' /\ r = object
  | existT (Call_scale_to_fit_width self w) _, Scale_to_width object w' =>
      self = object /\ value w == w'
  | existT (Call_play a rt) _, Animate a' seconds =>
      a = a' /\ value rt == seconds
  | existT (Call_wait d) _, Hold seconds => value d == seconds
  | _, _ => False
  end.

(** The inventory the specification's data model gives: every literal is a
    text string, a colour value, a font size or a duration. *)
Definition described_entity (l : literal) : bool :=
  match l with
  | Lit_text _ | Lit_color _ | Lit_font_size _ | Lit_duration _ => true
  | Lit_fit_width _ => false
  end.

Definition described_inventory (ls : list literal) : Prop :=
  forallb described_entity ls = true.

(** ** Frameworks to run on *)

(** A text renderer: a width that grows with the string and the font size. *)
Definition demo_width (text : string) (fs : pynum) : PrimFloat.float :=
  PrimFloat.div
    (PrimFloat.mul (float_of_Z (Z.of_nat (String.length text))) (to_float fs))
    (float_of_Z 100).

(** A scene as the renderer hands it to [construct]. *)
Definition new_scene : scene := Scene [] [].

(** The reference model made to answer every call: a call it refuses is
    ignored and answered with a stub. *)
Definition lenient (c : call) (s : scene) (r : result c) (s' : scene) : Prop :=
  match handle demo_width c s with
  | Some (r0, s0) => r = r0 /\ s' = s0
  | None => r = stub c 0 /\ s' = s
  end.

(** ** Further readings of a run *)

(** The mobjects a call is handed. *)
Definition objects_of_animation (a : animation) : list mobject :=
  match a with
  | Write m => [m]
  | Transform m target => [m; target]
  | FadeOut m => [m]
  end.

Definition objects_of (c : call) : list mobject :=
  match c with
  | Call_Text _ _ _ => []
  | Call_scale_to_fit_width self _ => [self]
  | Call_play a _ => objects_of_animation a
  | Call_wait _ => []
  end.

(** The mobject an event brought into being: the result of a [Text]. *)
Definition created (e : event) : list mobject :=
  match e with
  | existT (Call_Text _ _ _) r => [r]
  | _ => []
  end.

(** Every call of [tr] is handed only mobjects of [known] or mobjects that
    an earlier [Text] of [tr] returned. *)
Fixpoint well_scoped (known : list mobject) (tr : list event) : Prop :=
  match tr with
  | [] => True
  | e :: tr' =>
      Forall (fun m => m ∈ known) (objects_of (ev_call e)) /\
      well_scoped (known ++ created e) tr'
  end.

(** *** A call that raises

    The scripts have no [try]: an exception raised inside a framework call
    leaves [construct] at once.  [raises c s s'] says that call [c], issued
    in state [s], may raise and leave state [s'].  [aborts p s tr c s']: the
    script issued the calls [tr], which returned, then issued [c], which
    raised, and was left in state [s']. *)

Section Aborts.
Context {S : Type}.
Variable fw : forall c : call, S -> result c -> S -> Prop.
Variable raises : call -> S -> S -> Prop.

Fixpoint aborts {A} (p : script A) (s : S) (tr : list event) (failed : call)
    (s' : S) : Prop :=
  match p with
  | Ret _ => False
  | Call c k =>
      (raises c s s' /\ tr = [] /\ failed = c) \/
      (exists (r : result c) (s1 : S) (tr1 : list event),
          fw c s r s1 /\ tr = returned c r :: tr1 /\
          aborts (k r) s1 tr1 failed s')
  end.

End Aborts.

(** A renderer on which every [Transform] raises, whatever the scene. *)
Definition transform_raises (c : call) (s s' : scene) : Prop :=
  match c with
  | Call_play (Transform _ _) _ => s' = s
  | _ => False
  end.

(** *** Scenes *)

(** Every displayed mobject is an object of the heap. *)
Definition well_formed (s : scene) : Prop :=
  Forall (fun m => (m < length (heap s))%nat) (mobjects s).

(** How mobject [m] looks on the display of [s], if it is displayed. *)
Definition seen (s : scene) (m : mobject) : option shape :=
  if decide (m ∈ mobjects s) then heap s !! m ≫= looks_of else None.

(** A scene that already shows two objects. *)
Definition busy_scene : scene :=
  Scene [ Text_object (Shape "logo" (PyInt 12) WHITE (float_of_Z 2));
          Text_object (Shape "caption" (PyInt 18) BLUE (float_of_Z 14)) ]
        [1%nat; 0%nat].

(** The mobjects of the display list that have something to draw. *)
Definition draws (s : scene) (m : mobject) : bool :=
  match heap s !! m with
  | Some (Text_object _) => true
  | _ => false
  end.

Definition drawn (s : scene) : list mobject :=
  List.filter (draws s) (mobjects s).

(** *** The width bound of the specification

    "each body text's rendered width does not exceed the configured fit
    width": in every scene of the run, a displayed mobject that reads the
    body text is at most 11 wide, as floats compare. *)
Definition within_fit_width (text_width : string -> pynum -> PrimFloat.float)
    (ch : chunk) (sc : scene) : Prop :=
  forall sc_i sh,
    sc_i ∈ history text_width (construct_of ch) sc ->
    displays sc_i (body_text ch) sh ->
    PrimFloat.leb (width sh) (to_float (PyInt 11)) = true.

(** A renderer that lays every text out 10.625 wide. *)
Definition layout_10_625 (text : string) (fs : pynum) : PrimFloat.float :=
  PrimFloat.div (float_of_Z 85) (float_of_Z 8).


(** * Properties *)

(** ** Scripts in general *)

Section RunsFacts.
Context {S : Type}.
Variable fw : forall c : call, S -> result c -> S -> Prop.

(** A framework that answers every call lets every script finish. *)
Lemma runs_total {A} (p : script A) :
  fw_total fw -> forall s, exists tr a s', runs fw p s tr a s'.
Proof.
  intros Htot. induction p as [x | c k IH]; intros s; simpl.
  - exists [], x, s. auto.
  - destruct (Htot c s) as (r & s1 & Hc).
    destruct (IH r s1) as (tr & a & s' & Hk).
    exists (returned c r :: tr), a, s', r, s1, tr. auto.
Qed.

(** Whatever the framework does, a complete run of a file issued the eight
  calls of [issued], in that order, and no other. *)
Lemma runs_construct ch s tr a s' :
  runs fw (construct_of ch) s tr a s' ->
  exists title content scaled,
    tr = issued (title_text ch) (body_text ch) title content scaled.
Proof.
  intros H.
  destruct ch; simpl in H;
    destruct H as (title & ? & ? & _ & -> & H);
    destruct H as (content & ? & ? & _ & -> & H);
    destruct H as (scaled & ? & ? & _ & -> & H);
    do 5 (destruct H as ([] & ? & ? & _ & -> & H));
    destruct H as (-> & _ & _);
    exists title, content, scaled; reflexivity.
Qed.

End RunsFacts.
(** ** The reference model *)

Section ReferenceFacts.
Variable text_width : string -> pynum -> PrimFloat.float.

Lemma run_runs {A} (p : script A) s tr a s' :
  run text_width p s = Some (tr, a, s') <->
  runs (model text_width) p s tr a s'.
Proof.
  revert s tr a s'. induction p as [x | c k IH]; intros s tr a s'; simpl.
  - split.
    + intros [= <- <- <-]. auto.
    + intros (-> & -> & ->). reflexivity.
  - unfold model. split.
    + destruct (handle text_width c s) as [[r s1] |] eqn:Hc; [| discriminate].
      destruct (run text_width (k r) s1) as [[[tr1 a1] s1'] |] eqn:Hk;
        [| discriminate].
      intros [= <- <- <-]. exists r, s1, tr1. rewrite <- IH. auto.
    + intros (r & s1 & tr1 & -> & -> & Hk). apply IH in Hk. rewrite Hk.
      reflexivity.
Qed.

(** Two objects allocated on top of a heap [h]. *)
Lemma lookup_top0 (h : list object) x l : (h ++ x :: l) !! length h = Some x.
Proof. apply list_lookup_middle. reflexivity. Qed.

Lemma lookup_top1 (h : list object) x y l :
  (h ++ x :: y :: l) !! S (length h) = Some y.
Proof.
  replace (h ++ x :: y :: l) with ((h ++ [x]) ++ y :: l)
    by (rewrite <- app_assoc; reflexivity).
  apply list_lookup_middle. rewrite length_app. simpl. lia.
Qed.

Lemma insert_top0 (h : list object) x l z :
  <[length h := z]> (h ++ x :: l) = h ++ z :: l.
Proof.
  replace (length h) with (length h + 0)%nat by lia.
  rewrite insert_app_r. reflexivity.
Qed.

Lemma insert_top1 (h : list object) x y l z :
  <[S (length h) := z]> (h ++ x :: y :: l) = h ++ x :: z :: l.
Proof.
  replace (S (length h)) with (length h + 1)%nat by lia.
  rewrite insert_app_r. reflexivity.
Qed.

Lemma construct_instance ch :
  construct_of ch = template (instance (title_text ch) (body_text ch)).
Proof. destruct ch; reflexivity. Qed.

(** Symbolic execution of the model on a heap [h] with objects on top. *)
Ltac model_steps h :=
  cbn -[rescale_to_fit add remove to_float positive];
  repeat (first
    [ rewrite lookup_top0 | rewrite lookup_top1
    | rewrite insert_top0 | rewrite insert_top1
    | progress (rewrite !length_app, <- !app_assoc)
    | progress (replace (length h + 1)%nat with (S (length h)) by lia)
    | progress (replace (length h + 2)%nat with (S (S (length h))) by lia)
    | progress (replace (length h + 3)%nat with (S (S (S (length h)))) by lia)
    | match goal with
      | |- context [positive ?n] => change (positive n) with true
      end ];
    unfold hold, set_heap, set_mobjects;
    cbn -[rescale_to_fit add remove to_float positive]).

(** The scenes a file passes through on the model, from any scene: the two
    texts are objects [title] and [S title] of the heap, the placeholders of
    the two waits the next two. *)
Lemma history_instance title_s body_s s :
  let h := heap s in
  let title := length h in
  let first_wait := S (S title) in
  let second_wait := S first_wait in
  let T := Text_object
             (Shape title_s (PyInt 40) BLUE (text_width title_s (PyInt 40))) in
  let B := Shape body_s (PyInt 24) WHITE (text_width body_s (PyInt 24)) in
  let B' := Text_object (rescale_to_fit B (to_float (PyInt 11))) in
  let d1 := add title (mobjects s) in
  let d2 := add first_wait d1 in
  let d3 := add title d2 in
  let d4 := add second_wait d3 in
  history text_width (template (instance title_s body_s)) s =
    [ Scene (h ++ [T]) (mobjects s);
      Scene (h ++ [T; Text_object B]) (mobjects s);
      Scene (h ++ [T; B']) (mobjects s);
      Scene (h ++ [T; B']) d1;
      Scene (h ++ [T; B'; Bare_mobject]) d2;
      Scene (h ++ [B'; B'; Bare_mobject]) d3;
      Scene (h ++ [B'; B'; Bare_mobject; Bare_mobject]) d4;
      Scene (h ++ [B'; B'; Bare_mobject; Bare_mobject]) (remove title d4) ].
Proof.
  destruct s as [h ms]. model_steps h. reflexivity.
Qed.

Lemma history_construct ch s :
  let h := heap s in
  let title := length h in
  let first_wait := S (S title) in
  let second_wait := S first_wait in
  let T := Text_object
             (Shape (title_text ch) (PyInt 40) BLUE
                    (text_width (title_text ch) (PyInt 40))) in
  let B := Shape (body_text ch) (PyInt 24) WHITE
                 (text_width (body_text ch) (PyInt 24)) in
  let B' := Text_object (rescale_to_fit B (to_float (PyInt 11))) in
  let d1 := add title (mobjects s) in
  let d2 := add first_wait d1 in
  let d3 := add title d2 in
  let d4 := add second_wait d3 in
  history text_width (construct_of ch) s =
    [ Scene (h ++ [T]) (mobjects s);
      Scene (h ++ [T; Text_object B]) (mobjects s);
      Scene (h ++ [T; B']) (mobjects s);
      Scene (h ++ [T; B']) d1;
      Scene (h ++ [T; B'; Bare_mobject]) d2;
      Scene (h ++ [B'; B'; Bare_mobject]) d3;
      Scene (h ++ [B'; B'; Bare_mobject; Bare_mobject]) d4;
      Scene (h ++ [B'; B'; Bare_mobject; Bare_mobject]) (remove title d4) ].
Proof. rewrite construct_instance. apply history_instance. Qed.

(** The run of a file on the model, from any scene: it completes, the two
    texts are the next two objects of the heap, and the last scene of the
    history is the final one. *)
Lemma run_construct ch s :
  let title := length (heap s) in
  let content := S title in
  exists final,
    run text_width (construct_of ch) s =
      Some (issued (title_text ch) (body_text ch) title content content,
            tt, final)
    /\ list.last (history text_width (construct_of ch) s) = Some final.
Proof.
  rewrite history_construct. rewrite construct_instance.
  destruct s as [h ms].
  eexists. split; [| reflexivity].
  model_steps h. reflexivity.
Qed.

End ReferenceFacts.

(** ** Display lists *)

Lemma add_absent m (l : list mobject) : m ∉ l -> add m l = l ++ [m].
Proof.
  intros Hm. unfold add. rewrite decide_False by exact Hm. reflexivity.
Qed.

Lemma add_present m (l : list mobject) : m ∈ l -> add m l = l.
Proof.
  intros Hm. unfold add. rewrite decide_True by exact Hm. reflexivity.
Qed.

Lemma remove_absent m (l : list mobject) : m ∉ l -> remove m l = l.
Proof.
  unfold remove. induction l as [| x l IH]; intros Hm; [reflexivity |].
  apply not_elem_of_cons in Hm as [Hne Hm].
  rewrite filter_cons_True by congruence. rewrite IH by exact Hm. reflexivity.
Qed.

(** The display list along a run: the title [n] and the two placeholders
    [S (S n)] and [S (S (S n))] come after what was displayed, and the title
    goes again. *)
Lemma display_steps (n : mobject) (ms : list mobject) :
  Forall (fun m => (m < n)%nat) ms ->
  let d1 := add n ms in
  let d2 := add (S (S n)) d1 in
  let d3 := add n d2 in
  let d4 := add (S (S (S n))) d3 in
  d1 = ms ++ [n] /\
  d2 = ms ++ [n; S (S n)] /\
  d3 = ms ++ [n; S (S n)] /\
  d4 = ms ++ [n; S (S n); S (S (S n))] /\
  remove n d4 = ms ++ [S (S n); S (S (S n))].
Proof.
  intros Hlt. rewrite list.Forall_forall in Hlt.
  assert (forall k, (n <= k)%nat -> k ∉ ms) as Hfresh.
  { intros k Hk Hin. apply Hlt in Hin. lia. }
  assert (add n ms = ms ++ [n]) as E1.
  { apply add_absent, Hfresh. lia. }
  assert (add (S (S n)) (ms ++ [n]) = ms ++ [n; S (S n)]) as E2.
  { rewrite add_absent; [rewrite <- app_assoc; reflexivity |].
    rewrite elem_of_app, list_elem_of_singleton.
    intros [Hin | Heq]; [| lia].
    eapply Hfresh; [| exact Hin]. lia. }
  assert (add n (ms ++ [n; S (S n)]) = ms ++ [n; S (S n)]) as E3.
  { apply add_present. apply elem_of_app. right. apply list_elem_of_here. }
  assert (add (S (S (S n))) (ms ++ [n; S (S n)])
          = ms ++ [n; S (S n); S (S (S n))]) as E4.
  { rewrite add_absent; [rewrite <- app_assoc; reflexivity |].
    rewrite elem_of_app, !elem_of_cons, elem_of_nil.
    intros [Hin | [Heq | [Heq | []]]]; [| lia | lia].
    eapply Hfresh; [| exact Hin]. lia. }
  cbv zeta. rewrite E1, E2, E3, E4.
  repeat split; try reflexivity.
  unfold remove. rewrite list.filter_app.
  fold (remove n ms). rewrite remove_absent by (apply Hfresh; lia).
  rewrite filter_cons_False by (intros Hne; apply Hne; reflexivity).
  rewrite filter_cons_True by lia. rewrite filter_cons_True by lia.
  reflexivity.
Qed.

(** In a well-formed scene the next object of the heap is not displayed. *)
Lemma next_object_not_displayed sc :
  well_formed sc -> length (heap sc) ∉ mobjects sc.
Proof.
  unfold well_formed. rewrite list.Forall_forall. intros Hwf Hin.
  apply Hwf in Hin. lia.
Qed.

Lemma lookup_top2 (h : list object) x y z l :
  (h ++ x :: y :: z :: l) !! S (S (length h)) = Some z.
Proof.
  rewrite lookup_app_r by lia.
  replace (S (S (length h)) - length h)%nat with 2%nat by lia. reflexivity.
Qed.

Lemma lookup_top3 (h : list object) x y z w l :
  (h ++ x :: y :: z :: w :: l) !! S (S (S (length h))) = Some w.
Proof.
  rewrite lookup_app_r by lia.
  replace (S (S (S (length h))) - length h)%nat with 3%nat by lia.
  reflexivity.
Qed.

(** The titles, as read off the four files. *)
Lemma title_text_values :
  map title_text all_chunks =
    [ "Machine Learning Models"%string; "Real-World Applications"%string;
      "Conclusion"%string; "What is Machine Learning?"%string ].
Proof. reflexivity. Qed.

Lemma title_is_not_body ch : title_text ch <> body_text ch.
Proof. destruct ch; vm_compute; discriminate. Qed.

Lemma lenient_total : fw_total lenient.
Proof.
  intros c s. unfold lenient.
  destruct (handle demo_width c s) as [[r0 s0] |]; eauto.
Qed.

(** ** The fixed sequence of calls *)

(** C1.  Every complete run of every chunk's [construct], on any framework
    and from any state, consists of exactly these calls in this order: build
    the title text and the body text from the file's two string literals,
    scale the body to the fixed width 11, play [Write] on the title for 1.5,
    wait 0.5, play [Transform] of the title into the body for 1.0, wait 2.0,
    play [FadeOut] of the title for 0.5.  [Forall2] leaves room for no other
    call. *)
Theorem construct_sequence (ch : chunk) {S : Type}
    (fw : forall c : call, S -> result c -> S -> Prop)
    (s : S) (tr : list event) (a : unit) (s' : S) :
  runs fw (construct_of ch) s tr a s' ->
  exists title body : mobject,
    Forall2 performs tr
      (described_sequence (title_text ch) (body_text ch) title body 11).
Proof.
  intros H.
  destruct (runs_construct fw ch s tr a s' H) as (title & body & scaled & ->).
  exists title, body.
  generalize (title_text ch) (body_text ch). intros title_s body_s.
  unfold issued, described_sequence.
  repeat (constructor; [simpl; repeat split; reflexivity |]).
  constructor.
Qed.

Lemma construct_sequence_witness :
  exists tr s',
    runs (model demo_width) (construct_of Chunk8) new_scene tr tt s' /\
    exists title body : mobject,
      Forall2 performs tr
        (described_sequence (title_text Chunk8) (body_text Chunk8)
           title body 11).
Proof.
  assert (exists tr s',
    run demo_width (construct_of Chunk8) new_scene = Some (tr, tt, s'))
    as (tr & s' & Hrun).
  { eexists _, _. vm_compute. reflexivity. }
  apply run_runs in Hrun.
  exists tr, s'. split; [exact Hrun |].
  exact (construct_sequence Chunk8 (model demo_width) new_scene tr tt s' Hrun).
Defined.

(** C2.  In every complete run of every chunk, the [run_time]s of the
    animations and the durations of the waits add up, as exact rationals, to
    1.5 + 0.5 + 1.0 + 2.0 + 0.5, that is to 5.5 seconds. *)
Theorem scripted_duration_total (ch : chunk) {S : Type}
    (fw : forall c : call, S -> result c -> S -> Prop)
    (s : S) (tr : list event) (a : unit) (s' : S) :
  runs fw (construct_of ch) s tr a s' ->
  scripted_duration tr == 1.5 + 0.5 + 1.0 + 2.0 + 0.5 /\
  scripted_duration tr == 5.5.
Proof.
  intros H.
  destruct (runs_construct fw ch s tr a s' H) as (title & body & scaled & ->).
  generalize (title_text ch) (body_text ch). intros title_s body_s.
  split; vm_compute; reflexivity.
Qed.

Lemma scripted_duration_total_witness :
  exists tr s',
    runs (model demo_width) (construct_of Chunk10) new_scene tr tt s' /\
    scripted_duration tr == 1.5 + 0.5 + 1.0 + 2.0 + 0.5 /\
    scripted_duration tr == 5.5.
Proof.
  assert (exists tr s',
    run demo_width (construct_of Chunk10) new_scene = Some (tr, tt, s'))
    as (tr & s' & Hrun).
  { eexists _, _. vm_compute. reflexivity. }
  apply run_runs in Hrun.
  exists tr, s'. split; [exact Hrun |].
  exact (scripted_duration_total Chunk10 (model demo_width)
           new_scene tr tt s' Hrun).
Defined.

(** ** The body is scaled before anything is shown *)




(** ** What is written in a file *)

(** C4, as the specification's data model has it, fails on [chunk_8]: the
    file also holds the fit width [11], which is neither a string, a colour,
    a font size nor a duration. *)
Lemma described_inventory_misses_fit_width :
  ~ described_inventory (file_literals Chunk8).
Proof. unfold described_inventory. vm_compute. discriminate. Qed.

(** C4, amended.  The literals of every chunk are exactly: the title string
    with font size 40 and colour BLUE, the body string with font size 24 and
    colour WHITE, the fit width 11, and the five durations 1.5, 0.5, 1, 2,
    0.5, which take four distinct values.  They are fixed in the file: every
    run, on any framework and from any state, passes the same literals. *)
Theorem file_literals_inventory (ch : chunk) :
  file_literals ch =
    [ Lit_text (title_text ch); Lit_font_size (PyInt 40); Lit_color BLUE;
      Lit_text (body_text ch); Lit_font_size (PyInt 24); Lit_color WHITE;
      Lit_fit_width (PyInt 11);
      Lit_duration (PyFloat 1.5); Lit_duration (PyFloat 0.5);
      Lit_duration (PyInt 1); Lit_duration (PyInt 2);
      Lit_duration (PyFloat 0.5) ] /\
  length (duration_values (file_literals ch)) = 5%nat /\
  length (remove_dups (duration_values (file_literals ch))) = 4%nat /\
  (forall (S : Type) (fw : forall c : call, S -> result c -> S -> Prop)
          (s : S) (tr : list event) (a : unit) (s' : S),
      runs fw (construct_of ch) s tr a s' ->
      literals_issued tr = file_literals ch).
Proof.
  split; [destruct ch; reflexivity |].
  split; [destruct ch; vm_compute; reflexivity |].
  split; [destruct ch; vm_compute; reflexivity |].
  intros S fw s tr a s' H.
  destruct (runs_construct fw ch s tr a s' H) as (title & body & scaled & ->).
  destruct ch; reflexivity.
Qed.

Lemma file_literals_inventory_witness :
  exists tr s',
    runs (model demo_width) (construct_of Chunk9) new_scene tr tt s' /\
    literals_issued tr = file_literals Chunk9.
Proof.
  assert (exists tr s',
    run demo_width (construct_of Chunk9) new_scene = Some (tr, tt, s'))
    as (tr & s' & Hrun).
  { eexists _, _. vm_compute. reflexivity. }
  apply run_runs in Hrun.
  exists tr, s'. split; [exact Hrun |].
  destruct (file_literals_inventory Chunk9) as (_ & _ & _ & Hsame).
  exact (Hsame scene (model demo_width) new_scene tr tt s' Hrun).
Defined.

(** ** One template, four instances *)

(** C5.  Any two chunks issue the same operations: in complete runs of the
    two, on whatever frameworks and from whatever states, the kinds of the
    calls, their order and their timing parameters coincide; and both
    scripts are the template of the specification, instantiated with their
    own two strings. *)
Theorem same_operations (ch1 ch2 : chunk) {S1 S2 : Type}
    (fw1 : forall c : call, S1 -> result c -> S1 -> Prop)
    (fw2 : forall c : call, S2 -> result c -> S2 -> Prop)
    (s1 : S1) (tr1 : list event) (a1 : unit) (s1' : S1)
    (s2 : S2) (tr2 : list event) (a2 : unit) (s2' : S2) :
  runs fw1 (construct_of ch1) s1 tr1 a1 s1' ->
  runs fw2 (construct_of ch2) s2 tr2 a2 s2' ->
  operations tr1 = operations tr2 /\
  construct_of ch1 = template (instance (title_text ch1) (body_text ch1)) /\
  construct_of ch2 = template (instance (title_text ch2) (body_text ch2)).
Proof.
  intros H1 H2.
  destruct (runs_construct fw1 ch1 s1 tr1 a1 s1' H1) as (t1 & b1 & r1 & ->).
  destruct (runs_construct fw2 ch2 s2 tr2 a2 s2' H2) as (t2 & b2 & r2 & ->).
  split; [reflexivity |].
  split; apply construct_instance.
Qed.

Lemma same_operations_witness :
  exists tr1 s1' tr2 s2',
    runs (model demo_width) (construct_of Chunk8) new_scene tr1 tt s1' /\
    runs lenient (construct_of Chunk9) new_scene tr2 tt s2' /\
    operations tr1 = operations tr2 /\
    construct_of Chunk8
      = template (instance (title_text Chunk8) (body_text Chunk8)) /\
    construct_of Chunk9
      = template (instance (title_text Chunk9) (body_text Chunk9)).
Proof.
  assert (exists tr s',
    run demo_width (construct_of Chunk8) new_scene = Some (tr, tt, s'))
    as (tr1 & s1' & Hrun1).
  { eexists _, _. vm_compute. reflexivity. }
  apply run_runs in Hrun1.
  destruct (runs_total lenient (construct_of Chunk9) lenient_total new_scene)
    as (tr2 & [] & s2' & Hrun2).
  exists tr1, s1', tr2, s2'.
  split; [exact Hrun1 |]. split; [exact Hrun2 |].
  exact (same_operations Chunk8 Chunk9 (model demo_width) lenient
           new_scene tr1 tt s1' new_scene tr2 tt s2' Hrun1 Hrun2).
Defined.

(** C6.  In every complete run of every chunk the two [Text] constructors
    receive the file's title string and body string, in that order, and
    neither string is empty. *)
Theorem text_literals_nonempty (ch : chunk) {S : Type}
    (fw : forall c : call, S -> result c -> S -> Prop)
    (s : S) (tr : list event) (a : unit) (s' : S) :
  runs fw (construct_of ch) s tr a s' ->
  texts_issued tr = [title_text ch; body_text ch] /\
  title_text ch <> EmptyString /\
  body_text ch <> EmptyString.
Proof.
  intros H.
  destruct (runs_construct fw ch s tr a s' H) as (title & body & scaled & ->).
  split; [reflexivity |].
  split; destruct ch; vm_compute; discriminate.
Qed.

Lemma text_literals_nonempty_witness :
  exists tr s',
    runs (model demo_width) (construct_of Chunk10) new_scene tr tt s' /\
    texts_issued tr = [title_text Chunk10; body_text Chunk10] /\
    title_text Chunk10 <> EmptyString /\
    body_text Chunk10 <> EmptyString.
Proof.
  assert (exists tr s',
    run demo_width (construct_of Chunk10) new_scene = Some (tr, tt, s'))
    as (tr & s' & Hrun).
  { eexists _, _. vm_compute. reflexivity. }
  apply run_runs in Hrun.
  exists tr, s'. split; [exact Hrun |].
  exact (text_literals_nonempty Chunk10 (model demo_width)
           new_scene tr tt s' Hrun).
Defined.

(** ** Determinism and termination *)

(** C7.  [construct] of every chunk is deterministic.  On the reference
    model, two runs started from equal scenes issue the same calls with the
    same arguments and results in the same order and leave equal scenes,
    and the theorem says which: the eight calls of [issued] on the next two
    objects of the heap, and the scene with four more objects (the title and
    the body, both with the looks of the scaled body, and the placeholders
    of the two waits) whose display list is the one the calls leave.  On any
    two frameworks, deterministic or not, and from any two states, two runs
    in which [Text] returned the same objects issued identical calls: the
    script decides nothing on what else it is answered. *)
Theorem construct_deterministic (ch : chunk)
    (text_width : string -> pynum -> PrimFloat.float)
    (sc1 sc2 : scene) (tr1 tr2 : list event) (a1 a2 : unit) (f1 f2 : scene) :
  sc1 = sc2 ->
  run text_width (construct_of ch) sc1 = Some (tr1, a1, f1) ->
  run text_width (construct_of ch) sc2 = Some (tr2, a2, f2) ->
  tr1 = tr2 /\
  f1 = f2 /\
  (let title := length (heap sc1) in
   let looks :=
     Text_object
       (rescale_to_fit
          (Shape (body_text ch) (PyInt 24) WHITE
                 (text_width (body_text ch) (PyInt 24)))
          (to_float (PyInt 11))) in
   tr1 = issued (title_text ch) (body_text ch) title (S title) (S title) /\
   f1 = Scene (heap sc1 ++ [looks; looks; Bare_mobject; Bare_mobject])
              (remove title
                 (add (S (S (S title)))
                    (add title
                       (add (S (S title)) (add title (mobjects sc1))))))) /\
  (forall (S1 S2 : Type)
          (fw1 : forall c : call, S1 -> result c -> S1 -> Prop)
          (fw2 : forall c : call, S2 -> result c -> S2 -> Prop)
          (s1 : S1) (t1 : list event) (x1 : unit) (s1' : S1)
          (s2 : S2) (t2 : list event) (x2 : unit) (s2' : S2),
      runs fw1 (construct_of ch) s1 t1 x1 s1' ->
      runs fw2 (construct_of ch) s2 t2 x2 s2' ->
      flat_map created t1 = flat_map created t2 ->
      map ev_call t1 = map ev_call t2).
Proof.
  intros <- Hrun1 Hrun2.
  destruct (run_construct text_width ch sc1) as (final & Hrun & Hlast).
  rewrite Hrun in Hrun1, Hrun2.
  injection Hrun1 as <- _ <-. injection Hrun2 as <- _ <-.
  split; [reflexivity |]. split; [reflexivity |].
  split.
  - cbv zeta. split; [reflexivity |].
    rewrite history_construct in Hlast. injection Hlast as <-. reflexivity.
  - intros S1 S2 fw1 fw2 s1 t1 x1 s1' s2 t2 x2 s2' H1 H2.
    destruct (runs_construct fw1 ch s1 t1 x1 s1' H1) as (p1 & q1 & r1 & ->).
    destruct (runs_construct fw2 ch s2 t2 x2 s2' H2) as (p2 & q2 & r2 & ->).
    generalize (title_text ch) (body_text ch). intros title_s body_s.
    simpl. intros [= -> ->]. reflexivity.
Qed.

Lemma construct_deterministic_witness :
  exists tr1 f1 tr2 f2,
    run demo_width (construct_of Chunk11) busy_scene = Some (tr1, tt, f1) /\
    run demo_width (construct_of Chunk11) busy_scene = Some (tr2, tt, f2) /\
    tr1 = tr2 /\ f1 = f2.
Proof.
  assert (exists tr f,
    run demo_width (construct_of Chunk11) busy_scene = Some (tr, tt, f))
    as (tr & f & Hrun).
  { eexists _, _. vm_compute. reflexivity. }
  exists tr, f, tr, f.
  split; [exact Hrun |]. split; [exact Hrun |].
  destruct (construct_deterministic Chunk11 demo_width busy_scene busy_scene
              tr tr tt tt f f eq_refl Hrun Hrun) as (Htr & Hf & _).
  split; [exact Htr | exact Hf].
Defined.


(** C8.  [construct] of every chunk runs to completion.  On the reference
    model it returns from every scene, after eight calls.  On any framework
    that answers every call it has a complete run from every state.  And it
    is straight-line: whatever a framework answers, a complete run issues
    the same eight kinds of calls in the same order, so nothing is decided
    on an answer, repeated or re-entered. *)
Theorem construct_terminates (ch : chunk) :
  (forall (text_width : string -> pynum -> PrimFloat.float) (sc : scene),
      exists tr sc',
        run text_width (construct_of ch) sc = Some (tr, tt, sc') /\
        length tr = 8%nat) /\
  (forall (S : Type) (fw : forall c : call, S -> result c -> S -> Prop),
      fw_total fw ->
      forall s : S, exists tr s', runs fw (construct_of ch) s tr tt s') /\
  (forall (S : Type) (fw : forall c : call, S -> result c -> S -> Prop)
          (s : S) (tr : list event) (a : unit) (s' : S),
      runs fw (construct_of ch) s tr a s' ->
      kinds tr = [ K_Text; K_Text; K_scale_to_fit_width;
                   K_play; K_wait; K_play; K_wait; K_play ]).
Proof.
  split; [| split].
  - intros text_width sc.
    destruct (run_construct text_width ch sc) as (final & Hrun & _).
    eexists _, final. split; [exact Hrun | reflexivity].
  - intros S fw Htot s.
    destruct (runs_total fw (construct_of ch) Htot s) as (tr & [] & s' & H).
    exists tr, s'. exact H.
  - intros S fw s tr a s' H.
    destruct (runs_construct fw ch s tr a s' H) as (title & body & scaled & ->).
    reflexivity.
Qed.

Lemma construct_terminates_witness :
  fw_total lenient /\
  exists tr s',
    runs lenient (construct_of Chunk8) new_scene tr tt s' /\
    kinds tr = [ K_Text; K_Text; K_scale_to_fit_width;
                 K_play; K_wait; K_play; K_wait; K_play ].
Proof.
  split; [apply lenient_total |].
  destruct (construct_terminates Chunk8) as (_ & Hcompletes & Hkinds).
  destruct (Hcompletes scene lenient lenient_total new_scene)
    as (tr & s' & Hrun).
  exists tr, s'. split; [exact Hrun |].
  exact (Hkinds scene lenient new_scene tr tt s' Hrun).
Defined.


(** ** What is on the scene *)

(** C9.  On the reference model, from a scene that displays nothing, in the
    run of every chunk: the title and the body are distinct objects; the
    animations played are [Write(title)], [Transform(title, content)] and
    [FadeOut(title)], each acting on the title; the body object is never put
    on the display list.  Just before the last [play] the title is the only
    displayed mobject that has anything to draw: the display list holds it
    and the bare placeholders of the two waits.  When [construct] returns
    the placeholders are all that is left on the list, and nothing is
    drawn. *)
Theorem only_title_is_played (ch : chunk)
    (text_width : string -> pynum -> PrimFloat.float)
    (sc : scene) (tr : list event) (a : unit) (sc' : scene) :
  mobjects sc = [] ->
  run text_width (construct_of ch) sc = Some (tr, a, sc') ->
  exists title body first_wait second_wait : mobject,
    title <> body /\
    tr !! 0%nat
      = Some (returned (Call_Text (title_text ch) (PyInt 40) BLUE) title) /\
    tr !! 1%nat
      = Some (returned (Call_Text (body_text ch) (PyInt 24) WHITE) body) /\
    played tr = [Write title; Transform title body; FadeOut title] /\
    Forall (fun p => subject p = title) (played tr) /\
    (forall sc_i,
        sc_i ∈ history text_width (construct_of ch) sc ->
        body ∉ mobjects sc_i) /\
    (exists before_fade,
        history text_width (construct_of ch) sc !! 6%nat = Some before_fade /\
        mobjects before_fade = [title; first_wait; second_wait] /\
        heap before_fade !! first_wait = Some Bare_mobject /\
        heap before_fade !! second_wait = Some Bare_mobject /\
        drawn before_fade = [title]) /\
    mobjects sc' = [first_wait; second_wait] /\
    heap sc' !! first_wait = Some Bare_mobject /\
    heap sc' !! second_wait = Some Bare_mobject /\
    drawn sc' = [].
Proof.
  intros Hempty Hrun.
  destruct (run_construct text_width ch sc) as (final & Hrun' & Hlast).
  rewrite Hrun in Hrun'. injection Hrun' as -> _ ->. clear Hrun.
  rewrite history_construct in Hlast |- *.
  rewrite Hempty in Hlast |- *.
  destruct (display_steps (length (heap sc)) [] (Forall_nil _))
    as (E1 & E2 & E3 & E4 & E5).
  cbv zeta in E1, E2, E3, E4, E5.
  rewrite E5, E4, E3, E2, E1 in Hlast |- *.
  generalize dependent (body_text ch). generalize (title_text ch).
  intros title_s body_s Hlast.
  set (title := length (heap sc)) in *.
  exists title, (S title), (S (S title)), (S (S (S title))).
  split; [lia |].
  split; [reflexivity |]. split; [reflexivity |]. split; [reflexivity |].
  split; [repeat constructor |].
  split; [| split].
  - intros sc_i Hin Hbody.
    repeat (apply elem_of_cons in Hin as [-> | Hin]);
      try (apply elem_of_nil in Hin; contradiction);
      simpl in Hbody;
      repeat (apply elem_of_cons in Hbody as [Hbody | Hbody]; [lia |]);
      apply elem_of_nil in Hbody; exact Hbody.
  - eexists. split; [reflexivity |].
    split; [reflexivity |].
    split; [apply lookup_top2 |]. split; [apply lookup_top3 |].
    unfold drawn, draws. simpl. unfold title.
    rewrite lookup_top0, lookup_top2, lookup_top3. reflexivity.
  - injection Hlast as <-.
    split; [reflexivity |].
    split; [apply lookup_top2 |]. split; [apply lookup_top3 |].
    unfold drawn, draws. simpl. unfold title.
    rewrite lookup_top2, lookup_top3. reflexivity.
Qed.

Lemma only_title_is_played_witness :
  exists tr sc',
    mobjects new_scene = [] /\
    run demo_width (construct_of Chunk9) new_scene = Some (tr, tt, sc') /\
    exists title body first_wait second_wait : mobject,
      title <> body /\
      tr !! 0%nat
        = Some (returned (Call_Text (title_text Chunk9) (PyInt 40) BLUE)
                  title) /\
      tr !! 1%nat
        = Some (returned (Call_Text (body_text Chunk9) (PyInt 24) WHITE)
                  body) /\
      played tr = [Write title; Transform title body; FadeOut title] /\
      Forall (fun p => subject p = title) (played tr) /\
      (forall sc_i,
          sc_i ∈ history demo_width (construct_of Chunk9) new_scene ->
          body ∉ mobjects sc_i) /\
      (exists before_fade,
          history demo_width (construct_of Chunk9) new_scene !! 6%nat
            = Some before_fade /\
          mobjects before_fade = [title; first_wait; second_wait] /\
          heap before_fade !! first_wait = Some Bare_mobject /\
          heap before_fade !! second_wait = Some Bare_mobject /\
          drawn before_fade = [title]) /\
      mobjects sc' = [first_wait; second_wait] /\
      heap sc' !! first_wait = Some Bare_mobject /\
      heap sc' !! second_wait = Some Bare_mobject /\
      drawn sc' = [].
Proof.
  assert (exists tr sc',
    run demo_width (construct_of Chunk9) new_scene = Some (tr, tt, sc'))
    as (tr & sc' & Hrun).
  { eexists _, _. vm_compute. reflexivity. }
  exists tr, sc'.
  split; [reflexivity |]. split; [exact Hrun |].
  exact (only_title_is_played Chunk9 demo_width new_scene tr tt sc'
           eq_refl Hrun).
Defined.

(** ** The literals the chunks share *)

(** C10.  In each of the four chunks the literals other than the two strings
    are the same: font size 40 and colour BLUE for the title, font size 24
    and colour WHITE for the body, fit width 11 on the body, and the timing
    values 1.5, 0.5, 1.0, 2.0, 0.5.  The strings are what varies: no two
    chunks have the same title, nor the same body. *)
Theorem literals_shared_across_chunks :
  (forall ch : chunk, ch ∈ all_chunks) /\
  (forall ch : chunk,
      non_string_literals (file_literals ch) =
        [ Lit_font_size (PyInt 40); Lit_color BLUE;
          Lit_font_size (PyInt 24); Lit_color WHITE;
          Lit_fit_width (PyInt 11);
          Lit_duration (PyFloat 1.5); Lit_duration (PyFloat 0.5);
          Lit_duration (PyInt 1); Lit_duration (PyInt 2);
          Lit_duration (PyFloat 0.5) ]) /\
  (forall ch : chunk,
      firstn 3 (calls_of (construct_of ch) 0) =
        [ Call_Text (title_text ch) (PyInt 40) BLUE;
          Call_Text (body_text ch) (PyInt 24) WHITE;
          Call_scale_to_fit_width 1%nat (PyInt 11) ]) /\
  (forall ch : chunk,
      duration_values (file_literals ch) =
        [ Q2Qc 1.5; Q2Qc 0.5; Q2Qc 1.0; Q2Qc 2.0; Q2Qc 0.5 ]) /\
  NoDup (map title_text all_chunks) /\
  NoDup (map body_text all_chunks).
Proof.
  split; [intros []; unfold all_chunks; repeat constructor |].
  split; [intros []; reflexivity |].
  split; [intros []; reflexivity |].
  split.
  - intros []; cbn; repeat (f_equal; try (apply Qc_is_canon; reflexivity)).
  - split; apply NoDup_ListNoDup; vm_compute;
      repeat (constructor; [simpl; intuition discriminate |]); constructor.
Qed.


(** * Further properties of [construct] *)

(** ** Only its own objects *)

(** X1.  Whatever the framework, every mobject that a run of a chunk hands
    to a call was returned by an earlier [Text] call of the same run:
    [construct] never passes on an object that it did not create. *)
Theorem construct_well_scoped (ch : chunk) {S : Type}
    (fw : forall c : call, S -> result c -> S -> Prop)
    (s : S) (tr : list event) (a : unit) (s' : S) :
  runs fw (construct_of ch) s tr a s' ->
  well_scoped [] tr.
Proof.
  intros H.
  destruct (runs_construct fw ch s tr a s' H) as (title & body & scaled & ->).
  generalize (title_text ch) (body_text ch). intros title_s body_s.
  simpl. repeat split; repeat constructor.
Qed.

Lemma construct_well_scoped_witness :
  exists tr s',
    runs lenient (construct_of Chunk10) busy_scene tr tt s' /\
    well_scoped [] tr.
Proof.
  destruct (runs_total lenient (construct_of Chunk10) lenient_total busy_scene)
    as (tr & [] & s' & Hrun).
  exists tr, s'. split; [exact Hrun |].
  exact (construct_well_scoped Chunk10 lenient busy_scene tr tt s' Hrun).
Defined.

(** ** When a call raises *)

Section AbortsFacts.
Context {S : Type}.
Variable fw : forall c : call, S -> result c -> S -> Prop.
Variable raises : call -> S -> S -> Prop.

(** A run of the template that was cut short issued a proper prefix of the
    eight calls, and the call that raised is the next one. *)
Lemma aborts_instance title_s body_s s tr failed s' :
  aborts fw raises (template (instance title_s body_s)) s tr failed s' ->
  exists (title content scaled : mobject) (n : nat),
    (n < 8)%nat /\
    tr = firstn n (issued title_s body_s title content scaled) /\
    map ev_call (issued title_s body_s title content scaled) !! n
      = Some failed.
Proof.
  intros H. simpl in H.
  destruct H as [(_ & -> & ->) | (title & ? & ? & _ & -> & H)];
    [exists 0%nat, 0%nat, 0%nat, 0%nat; repeat split; lia |].
  destruct H as [(_ & -> & ->) | (content & ? & ? & _ & -> & H)];
    [exists title, 0%nat, 0%nat, 1%nat; repeat split; lia |].
  destruct H as [(_ & -> & ->) | (scaled & ? & ? & _ & -> & H)];
    [exists title, content, 0%nat, 2%nat; repeat split; lia |].
  destruct H as [(_ & -> & ->) | ([] & ? & ? & _ & -> & H)];
    [exists title, content, scaled, 3%nat; repeat split; lia |].
  destruct H as [(_ & -> & ->) | ([] & ? & ? & _ & -> & H)];
    [exists title, content, scaled, 4%nat; repeat split; lia |].
  destruct H as [(_ & -> & ->) | ([] & ? & ? & _ & -> & H)];
    [exists title, content, scaled, 5%nat; repeat split; lia |].
  destruct H as [(_ & -> & ->) | ([] & ? & ? & _ & -> & H)];
    [exists title, content, scaled, 6%nat; repeat split; lia |].
  destruct H as [(_ & -> & ->) | ([] & ? & ? & _ & -> & H)];
    [exists title, content, scaled, 7%nat; repeat split; lia |].
  contradiction.
Qed.

End AbortsFacts.

(** X2.  The scripts do not catch anything.  If a framework call raises in
    the middle of [construct], the calls made so far are a proper prefix of
    the eight calls of a complete run, the call that raised is the next one
    of them, nothing is called afterwards, and no [FadeOut] has been played:
    what the script had put on the scene is left there. *)
Theorem abort_is_prefix (ch : chunk) {S : Type}
    (fw : forall c : call, S -> result c -> S -> Prop)
    (raises : call -> S -> S -> Prop)
    (s : S) (tr : list event) (failed : call) (s' : S) :
  aborts fw raises (construct_of ch) s tr failed s' ->
  exists (title content scaled : mobject) (n : nat),
    (n < 8)%nat /\
    tr = firstn n (issued (title_text ch) (body_text ch) title content scaled)
    /\
    map ev_call (issued (title_text ch) (body_text ch) title content scaled)
      !! n = Some failed /\
    (forall m, FadeOut m ∉ played tr).
Proof.
  rewrite construct_instance. intros H.
  apply aborts_instance in H as (title & content & scaled & n & Hn & -> & Hf).
  exists title, content, scaled, n.
  split; [exact Hn |]. split; [reflexivity |]. split; [exact Hf |].
  generalize (title_text ch) (body_text ch). intros title_s body_s.
  intros m Hin.
  do 8 (destruct n as [| n]; [
    simpl in Hin;
    repeat (apply elem_of_cons in Hin as [Hin | Hin]; [discriminate |]);
    apply elem_of_nil in Hin; exact Hin |]).
  lia.
Qed.

Lemma abort_is_prefix_witness :
  exists tr failed s',
    aborts (model demo_width) transform_raises (construct_of Chunk8)
      new_scene tr failed s' /\
    exists (title content scaled : mobject) (n : nat),
      (n < 8)%nat /\
      tr = firstn n (issued (title_text Chunk8) (body_text Chunk8)
                       title content scaled) /\
      map ev_call (issued (title_text Chunk8) (body_text Chunk8)
                     title content scaled) !! n = Some failed /\
      (forall m, FadeOut m ∉ played tr).
Proof.
  assert (exists tr failed s',
    aborts (model demo_width) transform_raises (construct_of Chunk8)
      new_scene tr failed s') as (tr & failed & s' & Habort).
  { eexists _, _, _. simpl.
    do 5 (right; eexists _, _, _;
          split; [reflexivity | split; [reflexivity |]]).
    left. split; [reflexivity |]. split; reflexivity. }
  exists tr, failed, s'. split; [exact Habort |].
  exact (abort_is_prefix Chunk8 (model demo_width) transform_raises
           new_scene tr failed s' Habort).
Defined.


(** ** The scene around the script *)

(** X3.  On the reference model, from any well-formed scene, whatever it
    already displays: what was displayed stays displayed, in its order, at
    the front of the display list throughout the run; the body object is
    never on the list; the scene stays well-formed.  When [construct]
    returns the list is the original one followed by the bare placeholders
    of the two waits, so the scene draws exactly what it drew before. *)
Theorem display_kept (ch : chunk)
    (text_width : string -> pynum -> PrimFloat.float)
    (sc : scene) (tr : list event) (a : unit) (sc' : scene) :
  well_formed sc ->
  run text_width (construct_of ch) sc = Some (tr, a, sc') ->
  let title := length (heap sc) in
  let first_wait := S (S title) in
  let second_wait := S first_wait in
  mobjects sc' = mobjects sc ++ [first_wait; second_wait] /\
  heap sc' !! first_wait = Some Bare_mobject /\
  heap sc' !! second_wait = Some Bare_mobject /\
  drawn sc' = drawn sc /\
  (forall sc_i,
      sc_i ∈ history text_width (construct_of ch) sc ->
      (exists more, mobjects sc_i = mobjects sc ++ more) /\
      (S title ∉ mobjects sc_i) /\
      well_formed sc_i).
Proof.
  intros Hwf Hrun.
  destruct (run_construct text_width ch sc) as (final & Hrun' & Hlast).
  rewrite Hrun in Hrun'. injection Hrun' as _ _ ->. clear Hrun.
  rewrite history_construct in Hlast |- *.
  destruct (display_steps (length (heap sc)) (mobjects sc) Hwf)
    as (E1 & E2 & E3 & E4 & E5).
  cbv zeta in E1, E2, E3, E4, E5.
  rewrite E5, E4, E3, E2, E1 in Hlast |- *.
  generalize dependent (body_text ch). generalize (title_text ch).
  intros title_s body_s Hlast.
  cbv zeta. set (title := length (heap sc)) in *.
  assert (forall m, m ∈ mobjects sc -> (m < title)%nat) as Hlt.
  { unfold well_formed in Hwf. rewrite list.Forall_forall in Hwf. exact Hwf. }
  injection Hlast as <-.
  split; [reflexivity |].
  split; [apply lookup_top2 |]. split; [apply lookup_top3 |].
  split.
  - match goal with
    | |- drawn ?final = _ =>
        assert (draws final (S (S title)) = false) as Hfirst
          by (unfold draws; simpl; unfold title; rewrite lookup_top2;
              reflexivity);
        assert (draws final (S (S (S title))) = false) as Hsecond
          by (unfold draws; simpl; unfold title; rewrite lookup_top3;
              reflexivity)
    end.
    unfold drawn. cbn [mobjects]. rewrite List.filter_app.
    cbn [List.filter]. rewrite Hfirst, Hsecond, app_nil_r.
    apply List.filter_ext_in. intros m Hm. unfold draws. cbn [heap].
    rewrite lookup_app_l; [reflexivity |].
    apply Hlt. apply list_elem_of_In. exact Hm.
  - intros sc_i Hin.
    repeat (apply elem_of_cons in Hin as [-> | Hin]);
      try (apply elem_of_nil in Hin; contradiction);
      unfold well_formed; simpl;
      (split; [first [ exists []; rewrite app_nil_r; reflexivity
                     | eexists; reflexivity ] |]);
      (split;
       [ rewrite ?elem_of_app, ?elem_of_cons, ?elem_of_nil;
         intros Hm
       | rewrite list.Forall_forall; intros m;
         rewrite ?elem_of_app, ?elem_of_cons, ?elem_of_nil;
         rewrite !length_app; simpl; fold title;
         intros Hm ]);
      repeat match type of Hm with
             | _ \/ _ => destruct Hm as [Hm | Hm]
             end;
      first [ contradiction | apply Hlt in Hm; lia | lia ].
Qed.

Lemma display_kept_witness :
  exists tr sc',
    well_formed busy_scene /\
    run demo_width (construct_of Chunk11) busy_scene = Some (tr, tt, sc') /\
    mobjects sc' = [1; 0; 4; 5]%nat /\
    drawn sc' = drawn busy_scene.
Proof.
  assert (well_formed busy_scene) as Hwf.
  { unfold well_formed. simpl. repeat constructor. }
  assert (exists tr sc',
    run demo_width (construct_of Chunk11) busy_scene = Some (tr, tt, sc'))
    as (tr & sc' & Hrun).
  { eexists _, _. vm_compute. reflexivity. }
  exists tr, sc'.
  split; [exact Hwf |]. split; [exact Hrun |].
  destruct (display_kept Chunk11 demo_width busy_scene tr tt sc' Hwf Hrun)
    as (Hlist & _ & _ & Hdrawn & _).
  split; [exact Hlist | exact Hdrawn].
Defined.

(** X4.  On the reference model, from any scene, [construct] changes no
    object that was on the heap before it ran: in each of the eight scenes
    the run passes through, every object of the start heap is as it was. *)
Theorem old_objects_untouched (ch : chunk)
    (text_width : string -> pynum -> PrimFloat.float) (sc : scene) :
  length (history text_width (construct_of ch) sc) = 8%nat /\
  (forall sc_i i,
      sc_i ∈ history text_width (construct_of ch) sc ->
      (i < length (heap sc))%nat ->
      heap sc_i !! i = heap sc !! i).
Proof.
  rewrite history_construct. split; [reflexivity |].
  intros sc_i i Hin Hi.
  repeat (apply elem_of_cons in Hin as [-> | Hin]);
    try (apply elem_of_nil in Hin; contradiction);
    simpl; apply lookup_app_l; exact Hi.
Qed.

Lemma old_objects_untouched_witness :
  exists sc_i,
    list.last (history demo_width (construct_of Chunk8) busy_scene)
      = Some sc_i /\
    heap sc_i !! 0%nat = heap busy_scene !! 0%nat /\
    heap sc_i !! 1%nat = heap busy_scene !! 1%nat.
Proof.
  destruct (list.last (history demo_width (construct_of Chunk8) busy_scene))
    as [sc_i |] eqn:Hlast; [| vm_compute in Hlast; discriminate].
  exists sc_i. split; [reflexivity |].
  destruct (old_objects_untouched Chunk8 demo_width busy_scene)
    as (_ & Hsame).
  assert (sc_i ∈ history demo_width (construct_of Chunk8) busy_scene) as Hin.
  { apply last_Some in Hlast as (l' & ->).
    apply elem_of_app. right. apply list_elem_of_here. }
  split; apply (Hsame sc_i _ Hin); simpl; lia.
Defined.

(** ** What is seen, and when *)

Lemma seen_displayed h ms m :
  m ∈ ms -> seen (Scene h ms) m = h !! m ≫= looks_of.
Proof.
  intros Hm. unfold seen. simpl. rewrite decide_True by exact Hm.
  reflexivity.
Qed.

Lemma seen_absent h ms m : m ∉ ms -> seen (Scene h ms) m = None.
Proof.
  intros Hm. unfold seen. simpl. rewrite decide_False by exact Hm.
  reflexivity.
Qed.

(** X6.  On the reference model, from any well-formed scene, the object the
    script displays goes through these looks, call after call: not displayed
    while the texts are built and scaled; displayed as the title (title
    string, font size 40, BLUE) after [Write] and during the first wait;
    displayed with the looks of the scaled body after [Transform] and during
    the second wait; not displayed after [FadeOut]. *)
Theorem title_looks (ch : chunk)
    (text_width : string -> pynum -> PrimFloat.float) (sc : scene) :
  well_formed sc ->
  let title := length (heap sc) in
  let as_title :=
    Shape (title_text ch) (PyInt 40) BLUE
          (text_width (title_text ch) (PyInt 40)) in
  let as_body :=
    rescale_to_fit
      (Shape (body_text ch) (PyInt 24) WHITE
             (text_width (body_text ch) (PyInt 24)))
      (to_float (PyInt 11)) in
  map (fun sc_i => seen sc_i title)
      (history text_width (construct_of ch) sc) =
    [ None; None; None;
      Some as_title; Some as_title;
      Some as_body; Some as_body;
      None ].
Proof.
  intros Hwf.
  pose proof (next_object_not_displayed sc Hwf) as Hfresh.
  rewrite history_construct.
  destruct (display_steps (length (heap sc)) (mobjects sc) Hwf)
    as (E1 & E2 & E3 & E4 & E5).
  cbv zeta in E1, E2, E3, E4, E5.
  rewrite E5, E4, E3, E2, E1.
  generalize (body_text ch) (title_text ch). intros body_s title_s.
  assert (forall l, length (heap sc) ∈ mobjects sc ++ length (heap sc) :: l)
    as Hshown.
  { intros l. apply elem_of_app. right. apply list_elem_of_here. }
  assert (length (heap sc)
            ∉ mobjects sc ++ [S (S (length (heap sc)));
                              S (S (S (length (heap sc))))]) as Hgone.
  { rewrite elem_of_app, !elem_of_cons, elem_of_nil.
    intros [Hin | [Heq | [Heq | []]]]; [exact (Hfresh Hin) | lia | lia]. }
  cbn [map].
  rewrite !(seen_absent _ _ _ Hfresh), (seen_absent _ _ _ Hgone).
  rewrite !(seen_displayed _ _ _ (Hshown _)), !lookup_top0.
  reflexivity.
Qed.

Lemma title_looks_witness :
  well_formed busy_scene /\
  map (fun sc_i => seen sc_i (length (heap busy_scene)))
      (history demo_width (construct_of Chunk9) busy_scene) =
    [ None; None; None;
      Some (Shape (title_text Chunk9) (PyInt 40) BLUE
                  (demo_width (title_text Chunk9) (PyInt 40)));
      Some (Shape (title_text Chunk9) (PyInt 40) BLUE
                  (demo_width (title_text Chunk9) (PyInt 40)));
      Some (rescale_to_fit
              (Shape (body_text Chunk9) (PyInt 24) WHITE
                     (demo_width (body_text Chunk9) (PyInt 24)))
              (to_float (PyInt 11)));
      Some (rescale_to_fit
              (Shape (body_text Chunk9) (PyInt 24) WHITE
                     (demo_width (body_text Chunk9) (PyInt 24)))
              (to_float (PyInt 11)));
      None ].
Proof.
  assert (well_formed busy_scene) as Hwf.
  { unfold well_formed. simpl. repeat constructor. }
  split; [exact Hwf |].
  exact (title_looks Chunk9 demo_width busy_scene Hwf).
Defined.
